(** * SQLDiffWorker: the phased consistency-check worker of go/vt/worker/sqldiffer.go

    A shallow embedding of the worker's state machine (Run, run, findTargets,
    synchronizeReplication, diff, checkInterrupted, Cancel and the two status
    renderers) together with the properties its specification states.

    The worker talks to collaborators that live in other packages (the
    topology server, the tablet manager client, the cleaner of package
    wrangler, the row differ).  Their answers are taken from an environment
    [Env]; every call the worker makes is recorded in the list of events the
    embedded function returns, in program order. *)

From Stdlib Require Import String List ZArith Bool Arith Lia.
Import ListNotations.
Open Scope string_scope.
Open Scope list_scope.

(** ** Data model *)

(** [type sqlDiffWorkerState string] with its seven constants. *)
Inductive sqlDiffWorkerState : Type :=
| sqlDiffNotSarted
| sqlDiffDone
| sqlDiffError
| sqlDiffFindTargets
| sqlDiffSynchronizeReplication
| sqlDiffRunning
| sqlDiffCleanUp.

(** [func (state sqlDiffWorkerState) String() string]: the constant's text. *)
Definition sqlDiffWorkerState_String (s : sqlDiffWorkerState) : string :=
  match s with
  | sqlDiffNotSarted => "not started"
  | sqlDiffDone => "done"
  | sqlDiffError => "error"
  | sqlDiffFindTargets => "finding target instances"
  | sqlDiffSynchronizeReplication => "synchronizing replication"
  | sqlDiffRunning => "running the diff"
  | sqlDiffCleanUp => "cleaning up"
  end.

Definition sqlDiffWorkerState_eqb (a b : sqlDiffWorkerState) : bool :=
  match a, b with
  | sqlDiffNotSarted, sqlDiffNotSarted
  | sqlDiffDone, sqlDiffDone
  | sqlDiffError, sqlDiffError
  | sqlDiffFindTargets, sqlDiffFindTargets
  | sqlDiffSynchronizeReplication, sqlDiffSynchronizeReplication
  | sqlDiffRunning, sqlDiffRunning
  | sqlDiffCleanUp, sqlDiffCleanUp => true
  | _, _ => false
  end.

(** [topo.TabletAlias]: a cell name and a 32-bit tablet uid. *)
Record TabletAlias : Type := mkAlias { Cell : string; Uid : N }.

Definition TabletAlias_eqb (a b : TabletAlias) : bool :=
  String.eqb (Cell a) (Cell b) && N.eqb (Uid a) (Uid b).

(** The zero value [topo.TabletAlias{}]. *)
Definition zeroAlias : TabletAlias := mkAlias "" 0.

(** The tablet record [GetTablet] returns for an alias. *)
Record TabletInfo : Type := mkTablet { Alias : TabletAlias; Hostname : string }.

(** The tablet types this worker names. *)
Inductive TabletType : Type := TYPE_RDONLY | TYPE_SPARE | TYPE_CHECKER.

(** The two error values a [context.Context] reports from [Err()]. *)
Inductive ctxErr : Type := Canceled | DeadlineExceeded.

Definition ctxErr_eqb (a b : ctxErr) : bool :=
  match a, b with
  | Canceled, Canceled | DeadlineExceeded, DeadlineExceeded => true
  | _, _ => false
  end.

(** Go's [error] values as the worker meets them: the distinguished
    [topo.ErrInterrupted], the topology's [topo.ErrNoNode], the context
    errors, an error built by [fmt.Errorf(format, alias, cause)], and any
    other error a collaborator hands back.  A nil error is [None] of
    [option error]. *)
Inductive error : Type :=
| ErrInterrupted
| ErrNoNode
| ContextErr (c : ctxErr)
| Errorf (format : string) (a : TabletAlias) (cause : error)
| ErrorString (msg : string).

(** [SourceSpec] specifies a SQL query in some keyspace and shard. *)
Record SourceSpec : Type := mkSourceSpec {
  Keyspace : string;
  Shard : string;
  SQL : string;
  alias : TabletAlias
}.

Definition with_alias (s : SourceSpec) (a : TabletAlias) : SourceSpec :=
  mkSourceSpec (Keyspace s) (Shard s) (SQL s) a.

(** *** The cleaner of package wrangler *)

(** Modelled from the spec: the cleaner (package wrangler) is not part of
    this file's source.  It is the ordered, append-only list of recorded
    compensating actions, each with a name and the tablet it targets; the
    two kinds this worker records or edits are the change of a tablet's type
    and the restart of replication. *)
Inductive CleanerAction : Type :=
| ChangeSlaveTypeAction (TabletType_ : TabletType)
| StartSlaveAction (ti : TabletInfo).

Record cleanerActionReference : Type := mkAction {
  target : TabletAlias;
  action : CleanerAction
}.

Definition Cleaner : Type := list cleanerActionReference.

Definition isChangeSlaveType (r : cleanerActionReference) (a : TabletAlias) : bool :=
  match action r with
  | ChangeSlaveTypeAction _ => TabletAlias_eqb (target r) a
  | StartSlaveAction _ => false
  end.

(** Modelled from the spec: [wrangler.FindChangeSlaveTypeActionByTarget],
    absent from the source: the position of the first recorded
    ChangeSlaveType action whose target is the alias, if there is one. *)
Fixpoint findChangeSlaveType (c : Cleaner) (a : TabletAlias) : option nat :=
  match c with
  | [] => None
  | r :: c' =>
      if isChangeSlaveType r a then Some 0%nat
      else option_map S (findChangeSlaveType c' a)
  end.

(** Assignment [action.TabletType = t] through the pointer the lookup
    returned: the action stored at that position changes in place. *)
Fixpoint setTabletType (c : Cleaner) (i : nat) (t : TabletType) : Cleaner :=
  match c, i with
  | [], _ => []
  | r :: c', O =>
      match action r with
      | ChangeSlaveTypeAction _ => mkAction (target r) (ChangeSlaveTypeAction t) :: c'
      | StartSlaveAction _ => r :: c'
      end
  | r :: c', S j => r :: setTabletType c' j t
  end.

(** *** Streams and the diff report *)

Inductive Side : Type := Superset | Subset.

(** A [QueryResultReader]: the open stream of one query on one tablet. *)
Record QueryResultReader : Type := mkReader {
  reader_alias : TabletAlias;
  reader_sql : string;
  reader_conn : nat
}.

Definition QueryResultReader_eqb (a b : QueryResultReader) : bool :=
  TabletAlias_eqb (reader_alias a) (reader_alias b)
  && String.eqb (reader_sql a) (reader_sql b)
  && Nat.eqb (reader_conn a) (reader_conn b).

(** What the worker reads of a [DiffReport]. *)
Record DiffReport : Type := mkReport {
  processedRows : Z;
  processingQPS : Z;
  HasDifferences : bool;
  report_String : string
}.

(** [time.Duration] counts nanoseconds. *)
Definition Second : Z := 1000000000.

(** *** Events *)

Inductive LogLevel : Type := LInfo | LError.

Inductive LogArg : Type :=
| ArgAlias (a : TabletAlias)
| ArgErr (x : error)
| ArgStr (s : string)
| ArgInt (n : Z).

(** One event per effect of the worker, in the order the code performs
    them. *)
Inductive Event : Type :=
| EvSetState (s : sqlDiffWorkerState)
| EvRecordError (x : option error)
| EvPoll (interrupted : bool)
| EvLog (lvl : LogLevel) (format : string) (args : list LogArg)
| EvFindChecker (cell_ ks sh : string) (a : TabletAlias) (res : option error)
| EvWriteAlias (sd : Side) (a : TabletAlias)
| EvGetTablet (a : TabletAlias) (res : option error)
| EvStopSlave (ti : TabletInfo) (timeout : Z) (res : option error)
| EvRecordAction (r : cleanerActionReference)
| EvSetTabletType (a : TabletAlias) (t : TabletType)
| EvSleep (d : Z)
| EvOpen (a : TabletAlias) (sql : string) (res : QueryResultReader + error)
| EvClose (r : QueryResultReader)
| EvNewDiffer (sup sub : QueryResultReader) (keys : Z) (res : option error)
| EvDifferGo (res : option error)
| EvCleanUp (c : Cleaner) (res : option error).

(** *** The worker *)

(** [SQLDiffWorker].  [wr] is the environment the functions take; the mutex
    guards single assignments only and has no counterpart here.  [ctx] is
    what [worker.ctx.Err()] returns ([None] while the context is live), and
    [clock] counts the worker's calls to its collaborators. *)
Record SQLDiffWorker : Type := mkWorker {
  cell : string;
  shard : string;
  cleaner : Cleaner;
  ctx : option ctxErr;
  superset : SourceSpec;
  subset : SourceSpec;
  state : sqlDiffWorkerState;
  err : option error;
  clock : nat
}.

Definition set_cleaner (w : SQLDiffWorker) (c : Cleaner) : SQLDiffWorker :=
  mkWorker (cell w) (shard w) c (ctx w) (superset w) (subset w) (state w) (err w) (clock w).
Definition set_ctx (w : SQLDiffWorker) (c : option ctxErr) : SQLDiffWorker :=
  mkWorker (cell w) (shard w) (cleaner w) c (superset w) (subset w) (state w) (err w) (clock w).
Definition set_superset (w : SQLDiffWorker) (s : SourceSpec) : SQLDiffWorker :=
  mkWorker (cell w) (shard w) (cleaner w) (ctx w) s (subset w) (state w) (err w) (clock w).
Definition set_subset (w : SQLDiffWorker) (s : SourceSpec) : SQLDiffWorker :=
  mkWorker (cell w) (shard w) (cleaner w) (ctx w) (superset w) s (state w) (err w) (clock w).
Definition set_state (w : SQLDiffWorker) (s : sqlDiffWorkerState) : SQLDiffWorker :=
  mkWorker (cell w) (shard w) (cleaner w) (ctx w) (superset w) (subset w) s (err w) (clock w).
Definition set_err (w : SQLDiffWorker) (x : option error) : SQLDiffWorker :=
  mkWorker (cell w) (shard w) (cleaner w) (ctx w) (superset w) (subset w) (state w) x (clock w).
Definition set_clock (w : SQLDiffWorker) (n : nat) : SQLDiffWorker :=
  mkWorker (cell w) (shard w) (cleaner w) (ctx w) (superset w) (subset w) (state w) (err w) n.

(** [NewSQLDiffWorker]: a fresh cancellable context, an empty cleaner, state
    "not started". *)
Definition NewSQLDiffWorker (cell_ : string) (superset_ subset_ : SourceSpec) : SQLDiffWorker :=
  mkWorker cell_ "" [] None superset_ subset_ sqlDiffNotSarted None 0.

(** ** The environment *)

(** The collaborators' answers.  Each is asked with the worker's clock, so
    the same question may be answered differently at different moments.
    [cancel_arrives n] tells whether another goroutine has called [Cancel()]
    by the time the worker looks at its context at moment [n]. *)
Record Env : Type := mkEnv {
  cancel_arrives : nat -> bool;
  resolveChecker : nat -> string -> string -> string -> TabletAlias * option error;
  topo_GetTablet : nat -> TabletAlias -> string + error;
  tmc_StopSlave : nat -> TabletInfo -> Z -> option error;
  openQueryStream : nat -> TabletAlias -> string -> nat + error;
  newRowSubsetDiffer : nat -> QueryResultReader -> QueryResultReader -> Z -> option error;
  differ_Go : nat -> DiffReport * option error;
  cleaner_CleanUp : nat -> Cleaner -> option error
}.

(** ** A state-and-trace monad for the worker's methods *)

(** A method of the worker takes the worker, and returns its result, the
    worker after the call and the events of the call. *)
Definition M (A : Type) : Type := SQLDiffWorker -> A * SQLDiffWorker * list Event.

Definition value_of {A} (r : A * SQLDiffWorker * list Event) : A := fst (fst r).
Definition worker_of {A} (r : A * SQLDiffWorker * list Event) : SQLDiffWorker := snd (fst r).
Definition trace_of {A} (r : A * SQLDiffWorker * list Event) : list Event := snd r.

Definition ret {A} (a : A) : M A := fun w => (a, w, []).

Definition bind {A B} (m : M A) (k : A -> M B) : M B :=
  fun w =>
    let '(a, w1, t1) := m w in
    let '(b, w2, t2) := k a w1 in
    (b, w2, t1 ++ t2).

Declare Scope worker_scope.
Delimit Scope worker_scope with worker.
Notation "x <- m ;; k" := (bind m (fun x => k))
  (at level 61, m at next level, right associativity) : worker_scope.
Notation "m ;; k" := (bind m (fun _ => k))
  (at level 61, right associativity) : worker_scope.
Open Scope worker_scope.

Definition emit (ev : Event) : M unit := fun w => (tt, w, [ev]).
Definition get {A} (f : SQLDiffWorker -> A) : M A := fun w => (f w, w, []).
Definition modify (f : SQLDiffWorker -> SQLDiffWorker) : M unit := fun w => (tt, f w, []).

(** A [defer d] placed before [body]: [d] runs when the rest of the function
    returns, whatever it returns.  Nested defers therefore run last in,
    first out. *)
Definition defer {A} (d : M unit) (body : M A) : M A :=
  r <- body ;; d ;; ret r.

(** The worker's clock: the moment of the call, and one step on. *)
Definition tick : M nat := fun w => (clock w, set_clock w (S (clock w)), []).

(** ** The collaborators, as the worker calls them *)

Definition Logger_Infof (format : string) (args : list LogArg) : M unit :=
  emit (EvLog LInfo format args).
Definition Logger_Errorf (format : string) (args : list LogArg) : M unit :=
  emit (EvLog LError format args).

(** [cleaner.Record]: append one action. *)
Definition cleaner_Record (r : cleanerActionReference) : M unit :=
  modify (fun w => set_cleaner w (cleaner w ++ [r])) ;;
  emit (EvRecordAction r).

(** Modelled from the spec: [wrangler.RecordStartSlaveAction], absent from
    the source: record the restart of replication for the tablet. *)
Definition RecordStartSlaveAction (ti : TabletInfo) : M unit :=
  cleaner_Record (mkAction (Alias ti) (StartSlaveAction ti)).

(** The lookup of the ChangeSlaveType action in the worker's cleaner; the
    error of a failed lookup is the topology's "no node". *)
Definition FindChangeSlaveTypeActionByTarget (a : TabletAlias) : M (nat + error) :=
  get (fun w => match findChangeSlaveType (cleaner w) a with
                | Some i => inl i
                | None => inr ErrNoNode
                end).

Definition action_set_TabletType (i : nat) (a : TabletAlias) (t : TabletType) : M unit :=
  modify (fun w => set_cleaner w (setTabletType (cleaner w) i t)) ;;
  emit (EvSetTabletType a t).

(** Modelled from the spec: [findChecker] is in another file of package
    worker.  It resolves one eligible read-only replica of the keyspace and
    shard and reserves it for this worker; the reservation is recorded in
    the cleaner as the action that gives the replica its type back (the
    source calls it ChangeSlaveType(rdonly)).  A failed resolution records
    nothing and returns the error. *)
Definition findChecker (e : Env) (cell_ ks sh : string) : M (TabletAlias * option error) :=
  now <- tick ;;
  let r := resolveChecker e now cell_ ks sh in
  emit (EvFindChecker cell_ ks sh (fst r) (snd r)) ;;
  match snd r with
  | Some _ => ret r
  | None =>
      cleaner_Record (mkAction (fst r) (ChangeSlaveTypeAction TYPE_RDONLY)) ;;
      ret r
  end.

(** [worker.wr.TopoServer().GetTablet(alias)]. *)
Definition GetTablet (e : Env) (a : TabletAlias) : M (TabletInfo + error) :=
  now <- tick ;;
  match topo_GetTablet e now a with
  | inl h => emit (EvGetTablet a None) ;; ret (inl (mkTablet a h))
  | inr x => emit (EvGetTablet a (Some x)) ;; ret (inr x)
  end.

(** [worker.wr.TabletManagerClient().StopSlave(ctx, tablet)] under a context
    that times out after [timeout]. *)
Definition StopSlave (e : Env) (ti : TabletInfo) (timeout : Z) : M (option error) :=
  now <- tick ;;
  let r := tmc_StopSlave e now ti timeout in
  emit (EvStopSlave ti timeout r) ;;
  ret r.

Definition Sleep (d : Z) : M unit := emit (EvSleep d).

(** [NewQueryResultReaderForTablet(ctx, ts, alias, sql)]. *)
Definition NewQueryResultReaderForTablet (e : Env) (a : TabletAlias) (sql : string)
  : M (QueryResultReader + error) :=
  now <- tick ;;
  let r := match openQueryStream e now a sql with
           | inl c => inl (mkReader a sql c)
           | inr x => inr x
           end in
  emit (EvOpen a sql r) ;;
  ret r.

Definition Close (r : QueryResultReader) : M unit := emit (EvClose r).

(** [NewRowSubsetDiffer(superset, subset, pkFieldCount)]; the differ itself
    is the environment's. *)
Definition NewRowSubsetDiffer (e : Env) (sup sub : QueryResultReader) (keys : Z)
  : M (option error) :=
  now <- tick ;;
  let r := newRowSubsetDiffer e now sup sub keys in
  emit (EvNewDiffer sup sub keys r) ;;
  ret r.

(** [differ.Go(logger)]. *)
Definition Differ_Go (e : Env) : M (DiffReport * option error) :=
  now <- tick ;;
  let r := differ_Go e now in
  emit (EvDifferGo (snd r)) ;;
  ret r.

(** [worker.cleaner.CleanUp(worker.wr)]. *)
Definition CleanUp (e : Env) : M (option error) :=
  now <- tick ;;
  c <- get cleaner ;;
  let r := cleaner_CleanUp e now c in
  emit (EvCleanUp c r) ;;
  ret r.

(** ** The worker's methods *)

Definition setState (s : sqlDiffWorkerState) : M unit :=
  modify (fun w => set_state w s) ;;
  emit (EvSetState s).

Definition recordError (x : option error) : M unit :=
  modify (fun w => set_err (set_state w sqlDiffError) x) ;;
  emit (EvRecordError x).

(** [Cancel] calls the context's cancel function: a live context becomes
    cancelled, a context that is already done keeps its error. *)
Definition Cancel : M unit :=
  modify (fun w => set_ctx w (match ctx w with
                              | None => Some Canceled
                              | Some c => Some c
                              end)).

(** Looking at [worker.ctx]: while the context is live, a [Cancel()] another
    goroutine has issued by now takes effect first; a context that is done
    stays as it is. *)
Definition observe_ctx (e : Env) : M (option ctxErr) :=
  now <- tick ;;
  c <- get ctx ;;
  match c with
  | Some _ => ret c
  | None => (if cancel_arrives e now then Cancel else ret tt) ;; get ctx
  end.

Definition checkInterrupted (e : Env) : M bool :=
  c <- observe_ctx e ;;
  match c with
  | Some ce =>
      if ctxErr_eqb ce DeadlineExceeded then
        emit (EvPoll false) ;; ret false
      else
        emit (EvPoll true) ;;
        recordError (Some ErrInterrupted) ;;
        ret true
  | None => emit (EvPoll false) ;; ret false
  end.

(** [Error()]. *)
Definition worker_Error (w : SQLDiffWorker) : option error := err w.

Definition findTargets (e : Env) : M (option error) :=
  setState sqlDiffFindTargets ;;
  c <- get cell ;;
  sup <- get superset ;;
  r <- findChecker e c (Keyspace sup) (Shard sup) ;;
  modify (fun w => set_superset w (with_alias (superset w) (fst r))) ;;
  emit (EvWriteAlias Superset (fst r)) ;;
  match snd r with
  | Some x => ret (Some x)
  | None =>
      sub <- get subset ;;
      r <- findChecker e c (Keyspace sub) (Shard sub) ;;
      modify (fun w => set_subset w (with_alias (subset w) (fst r))) ;;
      emit (EvWriteAlias Subset (fst r)) ;;
      match snd r with
      | Some x => ret (Some x)
      | None => ret None
      end
  end.

Definition synchronizeReplication (e : Env) : M (option error) :=
  setState sqlDiffSynchronizeReplication ;;
  sub <- get subset ;;
  Logger_Infof "Stopping replication on subset slave %v" [ArgAlias (alias sub)] ;;
  r <- GetTablet e (alias sub) ;;
  match r with
  | inr x => ret (Some x)
  | inl subsetTablet =>
  x <- StopSlave e subsetTablet (60 * Second) ;;
  match x with
  | Some x => ret (Some (Errorf "Cannot stop slave %v: %v" (alias sub) x))
  | None =>
  i <- checkInterrupted e ;;
  if i then ret (Some ErrInterrupted) else
  RecordStartSlaveAction subsetTablet ;;
  a <- FindChangeSlaveTypeActionByTarget (alias sub) ;;
  match a with
  | inr x => ret (Some (Errorf "cannot find ChangeSlaveType action for %v: %v" (alias sub) x))
  | inl act =>
  action_set_TabletType act (alias sub) TYPE_SPARE ;;
  Sleep (5 * Second) ;;
  i <- checkInterrupted e ;;
  if i then ret (Some ErrInterrupted) else
  sup <- get superset ;;
  Logger_Infof "Stopping replication on superset slave %v" [ArgAlias (alias sup)] ;;
  r <- GetTablet e (alias sup) ;;
  match r with
  | inr x => ret (Some x)
  | inl supersetTablet =>
  x <- StopSlave e supersetTablet (60 * Second) ;;
  match x with
  | Some x => ret (Some (Errorf "Cannot stop slave %v: %v" (alias sup) x))
  | None =>
  RecordStartSlaveAction supersetTablet ;;
  a <- FindChangeSlaveTypeActionByTarget (alias sup) ;;
  match a with
  | inr x => ret (Some (Errorf "cannot find ChangeSlaveType action for %v: %v" (alias sup) x))
  | inl act =>
  action_set_TabletType act (alias sup) TYPE_SPARE ;;
  ret None
  end end end end end end.

Definition diff (e : Env) : M (option error) :=
  setState sqlDiffRunning ;;
  Logger_Infof "Running the diffs..." [] ;;
  sup <- get superset ;;
  r <- NewQueryResultReaderForTablet e (alias sup) (SQL sup) ;;
  match r with
  | inr x =>
      Logger_Errorf "NewQueryResultReaderForTablet(superset) failed: %v" [ArgErr x] ;;
      ret (Some x)
  | inl supersetQueryResultReader =>
  defer (Close supersetQueryResultReader) (
  sub <- get subset ;;
  r <- NewQueryResultReaderForTablet e (alias sub) (SQL sub) ;;
  match r with
  | inr x =>
      Logger_Errorf "NewQueryResultReaderForTablet(subset) failed: %v" [ArgErr x] ;;
      ret (Some x)
  | inl subsetQueryResultReader =>
  defer (Close subsetQueryResultReader) (
  d <- NewRowSubsetDiffer e supersetQueryResultReader subsetQueryResultReader 1 ;;
  match d with
  | Some x =>
      Logger_Errorf "NewRowSubsetDiffer() failed: %v" [ArgErr x] ;;
      ret (Some x)
  | None =>
  g <- Differ_Go e ;;
  match snd g with
  | Some x => Logger_Errorf "Differ.Go failed: %v" [ArgErr x]
  | None =>
      if HasDifferences (fst g) then
        Logger_Infof "Found differences: %v" [ArgStr (report_String (fst g))]
      else
        Logger_Infof "No difference found (%v rows processed, %v qps)"
          [ArgInt (processedRows (fst g)); ArgInt (processingQPS (fst g))]
  end ;;
  ret None
  end)
  end)
  end.

Definition run (e : Env) : M (option error) :=
  r <- findTargets e ;;
  match r with
  | Some x => ret (Some x)
  | None =>
  i <- checkInterrupted e ;;
  if i then ret (Some ErrInterrupted) else
  r <- synchronizeReplication e ;;
  match r with
  | Some x =>
      i <- checkInterrupted e ;;
      if i then ret (Some ErrInterrupted) else ret (Some x)
  | None =>
  i <- checkInterrupted e ;;
  if i then ret (Some ErrInterrupted) else
  r <- diff e ;;
  match r with
  | Some x => ret (Some x)
  | None => ret None
  end
  end
  end.

(** [Run] is mostly a wrapper to run the cleanup at the end. *)
Definition Run (e : Env) : M unit :=
  err0 <- run e ;;
  setState sqlDiffCleanUp ;;
  cerr <- CleanUp e ;;
  err1 <- match cerr with
          | Some c =>
              match err0 with
              | Some _ =>
                  Logger_Errorf "CleanUp failed in addition to job error: %v" [ArgErr c] ;;
                  ret err0
              | None => ret cerr
              end
          | None => ret err0
          end ;;
  match err1 with
  | Some _ => recordError err1
  | None => setState sqlDiffDone
  end.

(** ** The status renderers *)

(** The line feed Go writes as "\n". *)
Definition nl : string := String (Ascii.ascii_of_nat 10) EmptyString.

Section StatusReporter.

(** [Error()] of Go's error interface: the text of each error value, as
    the package that made the error renders it. *)
Variable Error : error -> string.

(** [StatusAsHTML]; [None] is the nil dereference of [worker.err.Error()]
    when the state is "error" and no error is stored. *)
Definition StatusAsHTML (w : SQLDiffWorker) : option string :=
  let result :=
    ("<b>Working on:</b> " ++ Keyspace (subset w) ++ "/" ++ Shard (subset w) ++ "</br>" ++ nl)%string in
  let result :=
    (result ++ ("<b>State:</b> " ++ sqlDiffWorkerState_String (state w) ++ "</br>" ++ nl))%string in
  match state w with
  | sqlDiffError =>
      match err w with
      | Some x => Some (result ++ ("<b>Error</b>: " ++ Error x ++ "</br>" ++ nl))%string
      | None => None
      end
  | sqlDiffRunning => Some (result ++ ("<b>Running...</b></br>" ++ nl))%string
  | sqlDiffDone => Some (result ++ ("<b>Success.</b></br>" ++ nl))%string
  | _ => Some result
  end.

(** [StatusAsText]. *)
Definition StatusAsText (w : SQLDiffWorker) : option string :=
  let result :=
    ("Working on: " ++ Keyspace (subset w) ++ "/" ++ Shard (subset w) ++ nl)%string in
  let result :=
    (result ++ ("State: " ++ sqlDiffWorkerState_String (state w) ++ nl))%string in
  match state w with
  | sqlDiffError =>
      match err w with
      | Some x => Some (result ++ ("Error: " ++ Error x ++ nl))%string
      | None => None
      end
  | sqlDiffRunning => Some (result ++ ("Running..." ++ nl))%string
  | sqlDiffDone => Some (result ++ ("Success." ++ nl))%string
  | _ => Some result
  end.

(** *** The information both renderings carry *)

(** A line of the status: a heading and what follows it. *)
Record status_line : Type := mkLine { heading : string; detail : string }.

(** The status of a snapshot, in the specification's words: the target
    identity, the state's name, and a third line that is the error text in
    state "error", a running marker while the diff runs, a success marker
    in state "done", and absent otherwise.  A snapshot in state "error"
    without an error has no rendering. *)
Definition status_lines (w : SQLDiffWorker) : option (list status_line) :=
  let head :=
    [ mkLine "Working on:" (" " ++ Keyspace (subset w) ++ "/" ++ Shard (subset w))%string;
      mkLine "State:" (" " ++ sqlDiffWorkerState_String (state w))%string ] in
  match state w with
  | sqlDiffError =>
      match err w with
      | Some x => Some (head ++ [mkLine "Error" (": " ++ Error x)%string])
      | None => None
      end
  | sqlDiffRunning => Some (head ++ [mkLine "Running..." ""])
  | sqlDiffDone => Some (head ++ [mkLine "Success." ""])
  | _ => Some head
  end.

(** Plain text: heading, detail, line feed. *)
Definition text_line (l : status_line) : string :=
  (heading l ++ detail l ++ nl)%string.

(** HTML: the heading in bold, the detail, a break before the line feed. *)
Definition html_line (l : status_line) : string :=
  ("<b>" ++ heading l ++ "</b>" ++ detail l ++ "</br>" ++ nl)%string.

Definition layout (f : status_line -> string) (ls : list status_line) : string :=
  fold_right (fun l acc => (f l ++ acc)%string) EmptyString ls.

End StatusReporter.

(** ** Sample inputs *)

Definition sample_superset : SourceSpec :=
  mkSourceSpec "lookup" "0" "select id, msg from lookup order by id" zeroAlias.
Definition sample_subset : SourceSpec :=
  mkSourceSpec "main" "-80" "select id, msg from data order by id" zeroAlias.

Definition sample_worker : SQLDiffWorker :=
  NewSQLDiffWorker "cell1" sample_superset sample_subset.

(** An environment in which every collaborator succeeds and nobody cancels. *)
Definition quiet_env : Env :=
  {| cancel_arrives := fun _ => false;
     resolveChecker := fun _ c ks _ =>
       (mkAlias c (if String.eqb ks "lookup" then 100 else 200), None);
     topo_GetTablet := fun _ _ => inl "host";
     tmc_StopSlave := fun _ _ _ => None;
     openQueryStream := fun n _ _ => inl n;
     newRowSubsetDiffer := fun _ _ _ _ => None;
     differ_Go := fun _ => (mkReport 10 5 false "", None);
     cleaner_CleanUp := fun _ _ => None |}.

(** The sample worker as target discovery leaves it in [quiet_env]. *)
Definition discovered_worker : SQLDiffWorker :=
  Eval vm_compute in worker_of (findTargets quiet_env sample_worker).

(** The same worker with a cleaner that holds no action. *)
Definition unreserved_worker : SQLDiffWorker := set_cleaner discovered_worker [].

(** [quiet_env] with a [Cancel()] from another goroutine landing before the
    worker's look at its context at moment [n]. *)
Definition cancel_at (n : nat) (e : Env) : Env :=
  mkEnv (fun k => Nat.eqb k n) (resolveChecker e) (topo_GetTablet e) (tmc_StopSlave e)
        (openQueryStream e) (newRowSubsetDiffer e) (differ_Go e) (cleaner_CleanUp e).

(** The comparison itself fails with a stream-read error. *)
Definition go_fails (x : error) (e : Env) : Env :=
  mkEnv (cancel_arrives e) (resolveChecker e) (topo_GetTablet e) (tmc_StopSlave e)
        (openQueryStream e) (newRowSubsetDiffer e)
        (fun _ => (mkReport 0 0 false "", Some x)) (cleaner_CleanUp e).

(** Target discovery finds no replica. *)
Definition resolve_fails (x : error) (e : Env) : Env :=
  mkEnv (cancel_arrives e) (fun _ _ _ _ => (zeroAlias, Some x)) (topo_GetTablet e)
        (tmc_StopSlave e) (openQueryStream e) (newRowSubsetDiffer e) (differ_Go e)
        (cleaner_CleanUp e).

(** Every halt of replication times out. *)
Definition stop_fails (x : error) (e : Env) : Env :=
  mkEnv (cancel_arrives e) (resolveChecker e) (topo_GetTablet e) (fun _ _ _ => Some x)
        (openQueryStream e) (newRowSubsetDiffer e) (differ_Go e) (cleaner_CleanUp e).

(** The cleaner fails. *)
Definition cleanup_fails (x : error) (e : Env) : Env :=
  mkEnv (cancel_arrives e) (resolveChecker e) (topo_GetTablet e) (tmc_StopSlave e)
        (openQueryStream e) (newRowSubsetDiffer e) (differ_Go e) (fun _ _ => Some x).

(** ** Reading traces *)

(** The values the worker's state takes, in order: [setState] writes its
    argument, [recordError] writes "error". *)
Fixpoint state_writes (t : list Event) : list sqlDiffWorkerState :=
  match t with
  | [] => []
  | EvSetState s :: t' => s :: state_writes t'
  | EvRecordError _ :: t' => sqlDiffError :: state_writes t'
  | _ :: t' => state_writes t'
  end.

(** How many times the cleaner ran. *)
Fixpoint cleanups (t : list Event) : nat :=
  match t with
  | [] => 0
  | EvCleanUp _ _ :: t' => S (cleanups t')
  | _ :: t' => cleanups t'
  end.

(** How many assignments one side's alias field received. *)
Fixpoint alias_writes (sd : Side) (t : list Event) : nat :=
  match t with
  | [] => 0
  | EvWriteAlias sd' _ :: t' =>
      match sd, sd' with
      | Superset, Superset | Subset, Subset => S (alias_writes sd t')
      | _, _ => alias_writes sd t'
      end
  | _ :: t' => alias_writes sd t'
  end.

(** The halts of replication that were issued. *)
Fixpoint halts (t : list Event) : list TabletInfo :=
  match t with
  | [] => []
  | EvStopSlave ti _ _ :: t' => ti :: halts t'
  | _ :: t' => halts t'
  end.

(** The streams that were opened, and those that were closed, in order. *)
Fixpoint opened (t : list Event) : list QueryResultReader :=
  match t with
  | [] => []
  | EvOpen _ _ (inl r) :: t' => r :: opened t'
  | _ :: t' => opened t'
  end.

Fixpoint closed (t : list Event) : list QueryResultReader :=
  match t with
  | [] => []
  | EvClose r :: t' => r :: closed t'
  | _ :: t' => closed t'
  end.

Fixpoint remove_first (r : QueryResultReader) (l : list QueryResultReader)
  : list QueryResultReader :=
  match l with
  | [] => []
  | x :: l' => if QueryResultReader_eqb r x then l' else x :: remove_first r l'
  end.

(** The streams still open at the end of a trace, given those open at its
    start: opening adds a stream, closing takes it away. *)
Fixpoint leaked_from (open : list QueryResultReader) (t : list Event)
  : list QueryResultReader :=
  match t with
  | [] => open
  | EvOpen _ _ (inl r) :: t' => leaked_from (r :: open) t'
  | EvClose r :: t' => leaked_from (remove_first r open) t'
  | _ :: t' => leaked_from open t'
  end.

Definition leaked (t : list Event) : list QueryResultReader := leaked_from [] t.

(** The order of the states along a run; the two terminal states come last
    and share a rank. *)
Definition rank (s : sqlDiffWorkerState) : nat :=
  match s with
  | sqlDiffNotSarted => 0
  | sqlDiffFindTargets => 1
  | sqlDiffSynchronizeReplication => 2
  | sqlDiffRunning => 3
  | sqlDiffCleanUp => 4
  | sqlDiffDone => 5
  | sqlDiffError => 5
  end.

(** A write of [b] over [a] does not go back. *)
Definition forward (a b : sqlDiffWorkerState) : bool := Nat.leb (rank a) (rank b).

(** Starting from [s], no write of the list goes back. *)
Fixpoint forward_only (s : sqlDiffWorkerState) (l : list sqlDiffWorkerState) : bool :=
  match l with
  | [] => true
  | x :: l' => forward s x && forward_only x l'
  end.

(** The one step back the code takes: from "error" to "cleaning up". *)
Definition back_to_cleanup (a b : sqlDiffWorkerState) : bool :=
  sqlDiffWorkerState_eqb a sqlDiffError && sqlDiffWorkerState_eqb b sqlDiffCleanUp.

Fixpoint forward_but_cleanup (s : sqlDiffWorkerState) (l : list sqlDiffWorkerState) : bool :=
  match l with
  | [] => true
  | x :: l' => (forward s x || back_to_cleanup s x) && forward_but_cleanup x l'
  end.

Definition terminal (s : sqlDiffWorkerState) : bool :=
  sqlDiffWorkerState_eqb s sqlDiffDone || sqlDiffWorkerState_eqb s sqlDiffError.

(** Every write moves strictly on. *)
Fixpoint strictly_forward_only (s : sqlDiffWorkerState) (l : list sqlDiffWorkerState) : bool :=
  match l with
  | [] => true
  | x :: l' => Nat.ltb (rank s) (rank x) && strictly_forward_only x l'
  end.

(** The state was written at some moment. *)
Definition reached (s : sqlDiffWorkerState) (l : list sqlDiffWorkerState) : bool :=
  existsb (sqlDiffWorkerState_eqb s) l.

(** The cleaner holds a ChangeSlaveType action for the alias. *)
Definition hasChangeSlaveType (c : Cleaner) (a : TabletAlias) : bool :=
  match findChangeSlaveType c a with
  | Some _ => true
  | None => false
  end.

(** The cleaner holds a StartSlave action for the alias. *)
Definition hasStartSlave (c : Cleaner) (a : TabletAlias) : bool :=
  existsb (fun r => match action r with
                    | StartSlaveAction _ => TabletAlias_eqb (target r) a
                    | ChangeSlaveTypeAction _ => false
                    end) c.

(** The two alias fields of a worker. *)
Definition aliases (w : SQLDiffWorker) : TabletAlias * TabletAlias :=
  (alias (superset w), alias (subset w)).

(** A method that leaves both alias fields as they are and assigns to
    neither. *)
Definition keeps_aliases {A} (m : M A) : Prop :=
  forall w,
    aliases (worker_of (m w)) = aliases w
    /\ alias_writes Superset (trace_of (m w)) = 0
    /\ alias_writes Subset (trace_of (m w)) = 0.

(** ** Further readings of traces and of the cleaner *)

(** The timeouts of the halts that were issued, and the waits. *)
Fixpoint halt_timeouts (t : list Event) : list Z :=
  match t with
  | [] => []
  | EvStopSlave _ d _ :: t' => d :: halt_timeouts t'
  | _ :: t' => halt_timeouts t'
  end.

Fixpoint sleeps (t : list Event) : list Z :=
  match t with
  | [] => []
  | EvSleep d :: t' => d :: sleeps t'
  | _ :: t' => sleeps t'
  end.

(** How many times target discovery asked for a replica. *)
Fixpoint lookups (t : list Event) : nat :=
  match t with
  | [] => 0
  | EvFindChecker _ _ _ _ _ :: t' => S (lookups t')
  | _ :: t' => lookups t'
  end.

(** Some checkpoint of the trace saw a cancellation. *)
Fixpoint interrupted (t : list Event) : bool :=
  match t with
  | [] => false
  | EvPoll true :: _ => true
  | _ :: t' => interrupted t'
  end.

(** The error [diff()] owes its caller, read off the trace: that of the
    first stream that failed to open or of the differ that failed to be
    built.  What the comparison returned plays no part. *)
Fixpoint setup_error (t : list Event) : option error :=
  match t with
  | [] => None
  | EvOpen _ _ (inr x) :: _ => Some x
  | EvNewDiffer _ _ _ (Some x) :: _ => Some x
  | _ :: t' => setup_error t'
  end.

(** The error [synchronizeReplication] owes its caller when a call to a
    collaborator failed: the lookup's error as it is, the halt's error
    wrapped with the alias of the replica. *)
Fixpoint remote_failure (t : list Event) : option error :=
  match t with
  | [] => None
  | EvGetTablet _ (Some x) :: _ => Some x
  | EvStopSlave ti _ (Some x) :: _ =>
      Some (Errorf "Cannot stop slave %v: %v" (Alias ti) x)
  | _ :: t' => remote_failure t'
  end.

(** The type the first ChangeSlaveType action recorded for the alias will
    give the replica. *)
Fixpoint changeSlaveTypeOf (c : Cleaner) (a : TabletAlias) : option TabletType :=
  match c with
  | [] => None
  | r :: c' =>
      match action r with
      | ChangeSlaveTypeAction t =>
          if TabletAlias_eqb (target r) a then Some t else changeSlaveTypeOf c' a
      | StartSlaveAction _ => changeSlaveTypeOf c' a
      end
  end.


(** The replicas whose halt succeeded, and those whose restart was
    recorded, in order. *)
Fixpoint halted_ok (t : list Event) : list TabletInfo :=
  match t with
  | [] => []
  | EvStopSlave ti _ None :: t' => ti :: halted_ok t'
  | _ :: t' => halted_ok t'
  end.

Fixpoint recorded_starts (t : list Event) : list TabletInfo :=
  match t with
  | [] => []
  | EvRecordAction r :: t' =>
      match action r with
      | StartSlaveAction ti => ti :: recorded_starts t'
      | ChangeSlaveTypeAction _ => recorded_starts t'
      end
  | _ :: t' => recorded_starts t'
  end.

(** * Properties *)

(** ** Equality tests *)

Lemma TabletAlias_eqb_eq (a b : TabletAlias) :
  TabletAlias_eqb a b = true <-> a = b.
Proof.
  destruct a as [c u], b as [c' u']; unfold TabletAlias_eqb; simpl.
  rewrite andb_true_iff, String.eqb_eq, N.eqb_eq.
  split; [intros [-> ->]; reflexivity | intros H; inversion H; auto].
Qed.

Lemma TabletAlias_eqb_refl (a : TabletAlias) : TabletAlias_eqb a a = true.
Proof. apply TabletAlias_eqb_eq; reflexivity. Qed.

Lemma QueryResultReader_eqb_refl (r : QueryResultReader) :
  QueryResultReader_eqb r r = true.
Proof.
  unfold QueryResultReader_eqb.
  now rewrite TabletAlias_eqb_refl, String.eqb_refl, Nat.eqb_refl.
Qed.

(** ** Traces of concatenated calls *)

Lemma cleanups_app (t u : list Event) : cleanups (t ++ u) = cleanups t + cleanups u.
Proof.
  induction t as [|ev t IH]; simpl; [reflexivity|].
  destruct ev; simpl; rewrite ?IH; reflexivity.
Qed.

Lemma state_writes_app (t u : list Event) :
  state_writes (t ++ u) = state_writes t ++ state_writes u.
Proof.
  induction t as [|ev t IH]; simpl; [reflexivity|].
  destruct ev; simpl; rewrite ?IH; reflexivity.
Qed.

Lemma alias_writes_app (sd : Side) (t u : list Event) :
  alias_writes sd (t ++ u) = alias_writes sd t + alias_writes sd u.
Proof.
  induction t as [|ev t IH]; simpl; [reflexivity|].
  destruct ev; simpl; rewrite ?IH; try reflexivity.
  destruct sd, sd0; simpl; rewrite ?IH; reflexivity.
Qed.

(** ** Running the worker on a symbolic input *)

(** Unfold the worker's methods down to the environment's answers. *)
Ltac unfold_worker :=
  cbv [Run run findTargets synchronizeReplication diff checkInterrupted observe_ctx Cancel
       recordError setState CleanUp Differ_Go NewRowSubsetDiffer Close
       NewQueryResultReaderForTablet Sleep StopSlave GetTablet findChecker
       action_set_TabletType FindChangeSlaveTypeActionByTarget RecordStartSlaveAction
       cleaner_Record Logger_Infof Logger_Errorf tick defer emit get modify bind ret
       value_of worker_of trace_of ctxErr_eqb
       set_cleaner set_ctx set_superset set_subset set_state set_err set_clock with_alias
       cell shard cleaner ctx superset subset state err clock
       Keyspace Shard SQL alias fst snd].

(** Split on an answer of the environment (or a field of the worker) that
    the next step of the code depends on. *)
Ltac split_on_answer :=
  match goal with
  | |- context [match ?x with _ => _ end] =>
      lazymatch x with
      | context [match _ with _ => _ end] => fail
      | _ => destruct x eqn:?
      end
  end.

(** Follow every path of the code. *)
Ltac all_paths := unfold_worker; repeat (split_on_answer; unfold_worker).

(** The phases never run the cleaner themselves. *)
Lemma run_no_cleanup (e : Env) (w : SQLDiffWorker) :
  cleanups (trace_of (run e w)) = 0.
Proof. destruct w; all_paths; reflexivity. Qed.

(** ** Run: cleanup and the terminal state *)

(** C1.  After [run()] returns, whatever it returns, [Run()] sets the state
    to "cleaning up" and calls the cleaner, once in the whole run.  A cleanup
    error becomes the run's error when [run()] had succeeded; when [run()]
    had failed, the cleanup error is logged and the error of [run()] is
    kept.  The final state is "done" exactly when both succeeded, and
    otherwise "error" with the retained error. *)
Theorem Run_cleanup_and_outcome (e : Env) (w : SQLDiffWorker) :
  let r := run e w in
  let c := cleaner (worker_of r) in
  let cerr := cleaner_CleanUp e (clock (worker_of r)) c in
  let R := Run e w in
  (exists rest,
      trace_of R = trace_of r ++ [EvSetState sqlDiffCleanUp; EvCleanUp c cerr] ++ rest
      /\ cleanups rest = 0
      /\ state_writes rest = [state (worker_of R)])
  /\ cleanups (trace_of R) = 1
  /\ (forall ce, cerr = Some ce -> value_of r = None ->
        err (worker_of R) = Some ce)
  /\ (forall ce x, cerr = Some ce -> value_of r = Some x ->
        err (worker_of R) = Some x
        /\ In (EvLog LError "CleanUp failed in addition to job error: %v" [ArgErr ce])
              (trace_of R))
  /\ (state (worker_of R) = sqlDiffDone <-> value_of r = None /\ cerr = None)
  /\ (state (worker_of R) = sqlDiffDone
      \/ state (worker_of R) = sqlDiffError
         /\ exists x, err (worker_of R) = Some x
                      /\ (value_of r = Some x \/ value_of r = None /\ cerr = Some x)).
Proof.
  intros r c cerr R.
  pose proof (run_no_cleanup e w) as Hrun.
  subst R cerr c r. unfold Run. cbv [bind].
  destruct (run e w) as [[err0 w1] t1].
  unfold value_of, worker_of, trace_of in *. cbn [fst snd] in *.
  destruct w1 as [ce sh cl cx sup sub st er ck].
  unfold_worker.
  destruct (cleaner_CleanUp e ck cl) as [ce'|] eqn:Hc, err0 as [x|];
    unfold_worker.
  all: repeat split.
  all: try solve [ eexists; repeat split; reflexivity
                 | rewrite ?cleanups_app, ?Hrun; reflexivity
                 | intros; congruence
                 | intros [? ?]; congruence
                 | intros; discriminate ].
  all: try solve [ repeat match goal with
                          | H : Some _ = Some _ |- _ => inversion H; clear H; subst
                          end;
                   apply in_or_app; right; cbn; auto 10 ].
  all: try solve [ left; reflexivity
                 | right; split; [reflexivity | eexists; split; [reflexivity | auto]] ].
Qed.

Lemma Run_cleanup_and_outcome_witness :
  err (worker_of (Run (cleanup_fails (ErrorString "restart failed") quiet_env) sample_worker))
  = Some (ErrorString "restart failed").
Proof.
  apply (proj1 (proj2 (proj2
           (Run_cleanup_and_outcome
              (cleanup_fails (ErrorString "restart failed") quiet_env) sample_worker)))
           (ErrorString "restart failed"));
    vm_compute; reflexivity.
Defined.

(** Follow every path of one call, naming its result, the worker it leaves
    and its trace; the property to prove is set aside meanwhile. *)
Ltac all_paths_of c u w' t :=
  let r := fresh "r" in
  let E := fresh "E" in
  let Q := fresh "Q" in
  remember c as r eqn:E;
  destruct r as [[u w'] t];
  cbn [value_of worker_of trace_of fst snd];
  match goal with |- ?G => set (Q := G) end;
  revert E;
  all_paths;
  intros E; injection E as ? ? ?; subst Q; subst u w' t.

(** Membership of an event in a trace the execution has made explicit. *)
Ltac in_cases H :=
  cbn in H; repeat (destruct H as [H|H]); try discriminate H; try contradiction H.

Ltac find_event := cbn; repeat (first [left; reflexivity | right]).

(** The same on closed inputs, where the trace is computed first. *)
Ltac find_event_closed := vm_compute; repeat (first [left; reflexivity | right]).

Ltac eval_trace_in H :=
  match type of H with
  | In _ ?t =>
      let t' := eval vm_compute in t in
      let E := fresh "E" in
      assert (E : t = t') by (vm_compute; reflexivity);
      rewrite E in H; clear E
  end.

(** ** The state along a run *)

(** C3, as stated, fails: a cancellation seen at the checkpoint after target
    discovery makes [checkInterrupted] write "error", and [Run] then writes
    "cleaning up" over it, a step back. *)
Lemma interrupted_run_goes_back_to_cleanup :
  state_writes (trace_of (Run (cancel_at 2 quiet_env) sample_worker))
  = [sqlDiffFindTargets; sqlDiffError; sqlDiffCleanUp; sqlDiffError]
  /\ forward_only (state sample_worker)
       (state_writes (trace_of (Run (cancel_at 2 quiet_env) sample_worker))) = false.
Proof. split; vm_compute; reflexivity. Qed.

(** C3, amended.  In a run started in state "not started", every write of
    the state moves forwards along not started, finding targets,
    synchronizing replication, running, cleaning up, done or error, except
    for the write of "cleaning up" over an "error" that a checkpoint has
    recorded; when no checkpoint sees a cancellation every write moves
    strictly forwards.  The run ends in "done" or in "error", the state last
    written; a run never reaches both; and "error" always comes with an
    error value. *)
Theorem Run_state_moves (e : Env) (w : SQLDiffWorker) :
  state w = sqlDiffNotSarted ->
  let R := Run e w in
  let ws := state_writes (trace_of R) in
  forward_but_cleanup (state w) ws = true
  /\ ((forall b, In (EvPoll b) (trace_of R) -> b = false) ->
      strictly_forward_only (state w) ws = true)
  /\ last ws (state w) = state (worker_of R)
  /\ terminal (state (worker_of R)) = true
  /\ xorb (reached sqlDiffDone ws) (reached sqlDiffError ws) = true
  /\ (state (worker_of R) = sqlDiffError -> err (worker_of R) <> None)
  /\ (forall x, In (EvRecordError x) (trace_of R) -> x <> None).
Proof.
  destruct w as [ce sh cl cx sup sub st er ck]; cbn [state]; intros ->.
  cbv zeta.
  all_paths_of (Run e (mkWorker ce sh cl cx sup sub sqlDiffNotSarted er ck)) u w' t.
  all: split; [reflexivity|].
  all: split;
    [intros H;
     first [ reflexivity
           | exfalso; assert (true = false) by (apply H; find_event); discriminate ]|].
  all: do 3 (split; [reflexivity|]).
  all: split; [try discriminate; intros _; discriminate|].
  all: intros x H; in_cases H; inversion H; discriminate.
Qed.

Lemma Run_state_moves_witness :
  state sample_worker = sqlDiffNotSarted
  /\ forward_but_cleanup (state sample_worker)
       (state_writes (trace_of (Run (cancel_at 2 quiet_env) sample_worker))) = true.
Proof.
  split; [reflexivity|].
  exact (proj1 (Run_state_moves (cancel_at 2 quiet_env) sample_worker eq_refl)).
Defined.

(** ** Interruption and timeouts *)

(** C5.  A context that is done because its deadline was exceeded makes
    [checkInterrupted] report no interruption and leave the state alone; it
    reports an interruption only for a cancelled context, that is after a
    [Cancel()].  In a run that nobody cancels, no checkpoint reports an
    interruption, and a halt of replication that fails, a timeout included,
    ends the run in state "error" with the wrapped error of the call, which is
    not the interrupted error. *)
Theorem interruption_only_by_cancel (e : Env) (w : SQLDiffWorker) :
  (ctx w = Some DeadlineExceeded ->
     checkInterrupted e w = (false, set_clock w (S (clock w)), [EvPoll false]))
  /\ (value_of (checkInterrupted e w) = true ->
        ctx (worker_of (checkInterrupted e w)) = Some Canceled
        /\ (ctx w = Some Canceled \/ ctx w = None /\ cancel_arrives e (clock w) = true))
  /\ ((ctx w = Some DeadlineExceeded \/ ctx w = None /\ (forall n, cancel_arrives e n = false)) ->
      let R := Run e w in
      (forall b, In (EvPoll b) (trace_of R) -> b = false)
      /\ (forall ti d x, In (EvStopSlave ti d (Some x)) (trace_of R) ->
            state (worker_of R) = sqlDiffError
            /\ err (worker_of R) = Some (Errorf "Cannot stop slave %v: %v" (Alias ti) x)
            /\ err (worker_of R) <> Some ErrInterrupted)).
Proof.
  destruct w as [ce sh cl cx sup sub st er ck]. cbn [ctx clock].
  split; [|split].
  - intros ->. reflexivity.
  - unfold_worker. destruct cx as [[|]|]; [ | discriminate | ].
    + intros _. split; [reflexivity | left; reflexivity].
    + destruct (cancel_arrives e ck) eqn:Ha; [|discriminate].
      intros _. split; [reflexivity | right; split; reflexivity].
  - intros Hc. cbv zeta.
    assert (Hno : cx = Some DeadlineExceeded \/ forall n, cancel_arrives e n = false)
      by (destruct Hc as [?|[_ ?]]; auto).
    assert (Hcx : cx <> Some Canceled) by (destruct Hc as [->|[-> _]]; discriminate).
    clear Hc.
    all_paths_of (Run e (mkWorker ce sh cl cx sup sub st er ck)) u w' t.
    all: try congruence.
    all: try solve [ exfalso; destruct Hno as [Hno|Hno]; [discriminate Hno|];
                     match goal with
                     | Hq : cancel_arrives _ _ = true |- _ =>
                         rewrite Hno in Hq; discriminate Hq
                     end ].
    all: split; [intros b H; in_cases H; inversion H; reflexivity|].
    all: intros ? ? ? H; in_cases H; inversion H; subst; cbn;
      repeat split; discriminate.
Qed.

Lemma interruption_only_by_cancel_witness :
  err (worker_of (Run (stop_fails (ContextErr DeadlineExceeded) quiet_env) sample_worker))
  = Some (Errorf "Cannot stop slave %v: %v" (mkAlias "cell1" 200)
            (ContextErr DeadlineExceeded)).
Proof.
  refine (proj1 (proj2
    (proj2 (proj2 (proj2 (interruption_only_by_cancel
                            (stop_fails (ContextErr DeadlineExceeded) quiet_env)
                            sample_worker))
                  (or_intror (conj eq_refl (fun _ => eq_refl))))
       (mkTablet (mkAlias "cell1" 200) "host") (60 * Second)%Z
       (ContextErr DeadlineExceeded) _))).
  find_event_closed.
Defined.

(** ** Cancellation before the run *)

(** C6, as stated, fails: [run()] has no checkpoint before target discovery,
    so a worker cancelled before [Run()] still runs discovery, and when
    discovery fails the run ends with discovery's error, not with the
    interrupted error. *)
Lemma cancelled_run_ends_with_discovery_error :
  ctx (worker_of (Cancel sample_worker)) = Some Canceled
  /\ err (worker_of (Run (resolve_fails (ErrorString "no endpoint") quiet_env)
                         (worker_of (Cancel sample_worker))))
     = Some (ErrorString "no endpoint")
  /\ ~ (state (worker_of (Run (resolve_fails (ErrorString "no endpoint") quiet_env)
                              (worker_of (Cancel sample_worker)))) = sqlDiffError
        /\ err (worker_of (Run (resolve_fails (ErrorString "no endpoint") quiet_env)
                               (worker_of (Cancel sample_worker))))
           = Some ErrInterrupted
        /\ halts (trace_of (Run (resolve_fails (ErrorString "no endpoint") quiet_env)
                                (worker_of (Cancel sample_worker)))) = []).
Proof.
  assert (E : err (worker_of (Run (resolve_fails (ErrorString "no endpoint") quiet_env)
                                  (worker_of (Cancel sample_worker))))
              = Some (ErrorString "no endpoint")) by (vm_compute; reflexivity).
  split; [reflexivity|]. split; [exact E|].
  intros (_ & H & _). rewrite E in H. discriminate H.
Qed.

(** C6, amended.  When [Cancel()] was called before [Run()], target
    discovery is still attempted; the run ends in state "error", with the
    error of discovery when discovery failed and with the interrupted error
    when discovery succeeded; no halt of replication is issued, and neither
    the synchronization nor the diff phase is entered. *)
Theorem cancelled_before_Run (e : Env) (w : SQLDiffWorker) :
  ctx w = Some Canceled ->
  let R := Run e w in
  (exists a r,
      In (EvFindChecker (cell w) (Keyspace (superset w)) (Shard (superset w)) a r)
         (trace_of R))
  /\ state (worker_of R) = sqlDiffError
  /\ (forall c ks sh a x,
        In (EvFindChecker c ks sh a (Some x)) (trace_of R) -> err (worker_of R) = Some x)
  /\ ((forall c ks sh a r, In (EvFindChecker c ks sh a r) (trace_of R) -> r = None) ->
      err (worker_of R) = Some ErrInterrupted)
  /\ halts (trace_of R) = []
  /\ reached sqlDiffSynchronizeReplication (state_writes (trace_of R)) = false
  /\ reached sqlDiffRunning (state_writes (trace_of R)) = false.
Proof.
  destruct w as [ce sh cl cx sup sub st er ck]; cbn [ctx cell superset]; intros ->.
  cbv zeta.
  all_paths_of (Run e (mkWorker ce sh cl (Some Canceled) sup sub st er ck)) u w' t.
  all: split; [do 2 eexists; find_event|].
  all: split; [reflexivity|].
  all: split; [intros ? ? ? ? ? H; in_cases H; inversion H; subst; reflexivity|].
  all: split;
    [intros H;
     first [ reflexivity
           | exfalso;
             match goal with
             | H : forall c ks sh a r, In (EvFindChecker c ks sh a r) ?t -> r = None |- _ =>
               match t with
               | context [EvFindChecker ?c ?ks ?sh ?a (Some ?x)] =>
                   assert (Some x = None) by (apply (H c ks sh a); find_event);
                   discriminate
               end
             end ]|].
  all: repeat split; reflexivity.
Qed.


Lemma cancelled_before_Run_witness :
  ctx (worker_of (Cancel sample_worker)) = Some Canceled
  /\ err (worker_of (Run quiet_env (worker_of (Cancel sample_worker))))
     = Some ErrInterrupted.
Proof.
  split; [reflexivity|].
  refine (proj1 (proj2 (proj2 (proj2
    (cancelled_before_Run quiet_env (worker_of (Cancel sample_worker)) eq_refl)))) _).
  intros c ks sh a r H. eval_trace_in H.
  repeat (destruct H as [H|H]); try discriminate H; try contradiction H;
    inversion H; reflexivity.
Defined.

(** ** The diff phase and its streams *)

(** C7.  On every path through [diff()] the streams closed are exactly the
    streams opened, last opened first closed; no stream is left open; and
    the closes are the last events before [diff()] returns. *)
Theorem diff_closes_what_it_opened (e : Env) (w : SQLDiffWorker) :
  let t := trace_of (diff e w) in
  let k := length t - length (closed t) in
  closed t = rev (opened t)
  /\ leaked t = []
  /\ skipn k t = map EvClose (closed t)
  /\ closed (firstn k t) = [].
Proof.
  destruct w as [ce sh cl cx sup sub st er ck]. cbv zeta.
  all_paths_of (diff e (mkWorker ce sh cl cx sup sub st er ck)) u w' t.
  all: split; [reflexivity|].
  all: split;
    [unfold leaked;
     repeat (cbn [leaked_from remove_first app]; rewrite ?QueryResultReader_eqb_refl);
     reflexivity|].
  all: split; reflexivity.
Qed.
(** ** The alias fields *)

Section AliasFrame.

Context {A B : Type}.

Lemma keeps_bind (m : M A) (k : A -> M B) :
  keeps_aliases m -> (forall a, keeps_aliases (k a)) -> keeps_aliases (bind m k).
Proof.
  intros Hm Hk w. unfold bind.
  destruct (m w) as [[a w1] t1] eqn:E1.
  destruct (k a w1) as [[b w2] t2] eqn:E2.
  destruct (Hm w) as (Ha & Hs & Hb). rewrite E1 in Ha, Hs, Hb.
  destruct (Hk a w1) as (Ha' & Hs' & Hb'). rewrite E2 in Ha', Hs', Hb'.
  unfold worker_of, trace_of in *; cbn [fst snd] in *.
  rewrite !alias_writes_app, Hs, Hs', Hb, Hb'. repeat split. congruence.
Qed.

(** What follows a call keeps the aliases: the whole leaves them as the
    call left them, and every assignment is one of the call's. *)
Lemma bind_keeps_after (m : M A) (k : A -> M B) (w : SQLDiffWorker) :
  (forall a, keeps_aliases (k a)) ->
  exists rest,
    trace_of (bind m k w) = trace_of (m w) ++ rest
    /\ alias_writes Superset rest = 0
    /\ alias_writes Subset rest = 0
    /\ aliases (worker_of (bind m k w)) = aliases (worker_of (m w)).
Proof.
  intros Hk. unfold bind.
  destruct (m w) as [[a w1] t1].
  destruct (k a w1) as [[b w2] t2] eqn:E2.
  destruct (Hk a w1) as (Ha' & Hs' & Hb'). rewrite E2 in Ha', Hs', Hb'.
  exists t2. repeat split; assumption.
Qed.

End AliasFrame.

(** One step of a frame proof, given the rule [seq] for sequencing: split a
    sequence, follow a case split of the code, or check a primitive, which
    neither assigns an alias nor emits an assignment. *)
Ltac frame_step seq :=
  first [ apply seq; [|intro]
        | match goal with
          | |- _ (match ?x with _ => _ end) => destruct x
          end
        | progress cbv zeta
        | solve [intros ?; repeat split] ].

Ltac frame seq := repeat frame_step seq.

(** Target discovery assigns the superset alias once and the subset alias at
    most once. *)
Lemma findTargets_writes (e : Env) (w : SQLDiffWorker) :
  alias_writes Superset (trace_of (findTargets e w)) = 1
  /\ alias_writes Subset (trace_of (findTargets e w)) <= 1.
Proof.
  destruct w as [ce sh cl cx sup sub st er ck].
  all_paths_of (findTargets e (mkWorker ce sh cl cx sup sub st er ck)) u w' t.
  all: split; cbn; lia.
Qed.

(** C8.  In a run each alias field is assigned at most once, and only by
    [findTargets]: the trace of [Run] is that of target discovery followed
    by events that assign no alias, and the aliases at the end of the run
    are those discovery left.  [synchronizeReplication], [diff],
    [checkInterrupted], [Cancel], [setState], [recordError] and the cleanup
    leave both fields as they are.  (The status renderers are functions of
    the worker that return text only.) *)
Theorem alias_written_only_by_findTargets (e : Env) (w : SQLDiffWorker) :
  let R := Run e w in
  let F := findTargets e w in
  alias_writes Superset (trace_of R) <= 1
  /\ alias_writes Subset (trace_of R) <= 1
  /\ (exists rest,
        trace_of R = trace_of F ++ rest
        /\ alias_writes Superset rest = 0
        /\ alias_writes Subset rest = 0)
  /\ aliases (worker_of R) = aliases (worker_of F)
  /\ keeps_aliases (synchronizeReplication e)
  /\ keeps_aliases (diff e)
  /\ keeps_aliases (checkInterrupted e)
  /\ keeps_aliases Cancel
  /\ (forall s, keeps_aliases (setState s))
  /\ (forall x, keeps_aliases (recordError x))
  /\ keeps_aliases (CleanUp e).
Proof.
  intros R F.
  assert (H : exists rest,
             trace_of R = trace_of F ++ rest
             /\ alias_writes Superset rest = 0
             /\ alias_writes Subset rest = 0
             /\ aliases (worker_of R) = aliases (worker_of F)).
  { subst R F. unfold Run.
    match goal with
    | |- context [bind (run e) ?k w] =>
        destruct (bind_keeps_after (run e) k w) as (r1 & E1 & S1 & B1 & A1);
          [intro; frame (@keeps_bind)|]
    end.
    rewrite E1, A1. unfold run.
    match goal with
    | |- context [bind (findTargets e) ?k w] =>
        destruct (bind_keeps_after (findTargets e) k w) as (r2 & E2 & S2 & B2 & A2);
          [intro; frame (@keeps_bind)|]
    end.
    rewrite E2, A2. exists (r2 ++ r1).
    rewrite <- app_assoc, !alias_writes_app, S1, S2, B1, B2. repeat split. }
  destruct H as (rest & E & S0 & B0 & A0).
  destruct (findTargets_writes e w) as (F1 & F2). fold F in F1, F2.
  split; [rewrite E, alias_writes_app, S0; lia|].
  split; [rewrite E, alias_writes_app, B0; lia|].
  split; [exists rest; auto|].
  split; [exact A0|].
  split; [unfold synchronizeReplication; frame (@keeps_bind)|].
  split; [unfold diff; frame (@keeps_bind)|].
  split; [unfold checkInterrupted; frame (@keeps_bind)|].
  split; [unfold Cancel; frame (@keeps_bind)|].
  split; [intros s; unfold setState; frame (@keeps_bind)|].
  split; [intros x; unfold recordError; frame (@keeps_bind)|].
  unfold CleanUp; frame (@keeps_bind).
Qed.

(** ** The two status renderings *)

Lemma string_app_assoc (a b c : string) :
  ((a ++ b) ++ c)%string = (a ++ (b ++ c))%string.
Proof. induction a as [|ch a IH]; simpl; [reflexivity | now rewrite IH]. Qed.

Lemma string_app_empty_r (a : string) : (a ++ "")%string = a.
Proof. induction a as [|ch a IH]; simpl; [reflexivity | now rewrite IH]. Qed.

(** C9.  For every snapshot of the worker, [StatusAsText] and [StatusAsHTML]
    lay out the same lines: the target identity, the state's name and the
    same conditional third line.  The plain text writes heading, detail and
    a line feed; the HTML writes the heading in bold and a break before the
    line feed, and differs in nothing else.  Both fail alike on a snapshot in
    state "error" that holds no error. *)
Theorem status_renderings_agree (Error : error -> string) (w : SQLDiffWorker) :
  StatusAsText Error w = option_map (layout text_line) (status_lines Error w)
  /\ StatusAsHTML Error w = option_map (layout html_line) (status_lines Error w).
Proof.
  unfold StatusAsText, StatusAsHTML, status_lines, layout, text_line, html_line.
  destruct (state w), (err w); cbn [option_map fold_right app heading detail];
    split; try reflexivity; f_equal;
    rewrite ?string_app_assoc, ?string_app_empty_r; cbn; reflexivity.
Qed.

(** ** Synchronizing replication and the cleaner *)

Lemma findChangeSlaveType_record_start (c : Cleaner) (a' : TabletAlias)
      (ti : TabletInfo) (a : TabletAlias) :
  findChangeSlaveType (c ++ [mkAction a' (StartSlaveAction ti)]) a
  = findChangeSlaveType c a.
Proof.
  induction c as [|r c IH]; simpl; [reflexivity|].
  destruct (isChangeSlaveType r a); [reflexivity | now rewrite IH].
Qed.

Lemma findChangeSlaveType_setTabletType (c : Cleaner) (i : nat) (t : TabletType)
      (a : TabletAlias) :
  findChangeSlaveType (setTabletType c i t) a = findChangeSlaveType c a.
Proof.
  revert i; induction c as [|r c IH]; intros i; [destruct i; reflexivity|].
  destruct i as [|j]; simpl.
  - destruct r as [tg [ty|ti]]; reflexivity.
  - now rewrite IH.
Qed.

Lemma hasStartSlave_recorded (c : Cleaner) (ti : TabletInfo) :
  hasStartSlave (c ++ [mkAction (Alias ti) (StartSlaveAction ti)]) (Alias ti) = true.
Proof.
  unfold hasStartSlave. rewrite existsb_app. simpl.
  rewrite TabletAlias_eqb_refl. now rewrite orb_true_r.
Qed.

(** Follow every path of one call as [all_paths_of] does, rewriting with
    the two given equations before each split; for [synchronizeReplication]
    they turn every lookup in the cleaner into a lookup in the cleaner the
    phase started with. *)
Ltac all_paths_rewriting_of eq1 eq2 c u w' t :=
  let r := fresh "r" in
  let E := fresh "E" in
  let Q := fresh "Q" in
  remember c as r eqn:E;
  destruct r as [[u w'] t];
  cbn [value_of worker_of trace_of fst snd];
  match goal with |- ?G => set (Q := G) end;
  revert E;
  unfold_worker;
  repeat (repeat first [rewrite eq1 | rewrite eq2];
          split_on_answer; unfold_worker);
  intros E; injection E as ? ? ?; subst Q; subst u w' t.

(** C10, as stated, fails for the subset replica: with replication halted
    and no ChangeSlaveType action in the cleaner, a cancellation seen at the
    checkpoint that follows the halt makes the phase return the interrupted
    error, before the StartSlave action is recorded or the lookup made. *)
Lemma interrupted_before_lookup :
  let R := synchronizeReplication (cancel_at 4 quiet_env) unreserved_worker in
  let ti := mkTablet (mkAlias "cell1" 200) "host" in
  In (EvStopSlave ti (60 * Second) None) (trace_of R)
  /\ hasChangeSlaveType (cleaner unreserved_worker) (Alias ti) = false
  /\ value_of R = Some ErrInterrupted
  /\ hasStartSlave (cleaner (worker_of R)) (Alias ti) = false
  /\ ~ (value_of R
        = Some (Errorf "cannot find ChangeSlaveType action for %v: %v" (Alias ti) ErrNoNode)
        /\ hasStartSlave (cleaner (worker_of R)) (Alias ti) = true).
Proof.
  cbv zeta.
  assert (E : value_of (synchronizeReplication (cancel_at 4 quiet_env) unreserved_worker)
              = Some ErrInterrupted) by (vm_compute; reflexivity).
  split; [find_event_closed|].
  split; [vm_compute; reflexivity|].
  split; [exact E|].
  split; [vm_compute; reflexivity|].
  intros [H _]. rewrite E in H. discriminate H.
Qed.

(** C10, amended.  [synchronizeReplication] succeeds only if the cleaner it
    starts with holds a ChangeSlaveType action for the subset alias and one
    for the superset alias.  For either replica, when its replication was
    halted, the cleaner holds no ChangeSlaveType action for its alias, and no
    checkpoint of the phase saw a cancellation, the phase returns the
    "cannot find ChangeSlaveType action" error, after having recorded the
    StartSlave action of that replica. *)
Theorem synchronizeReplication_needs_ChangeSlaveType (e : Env) (w : SQLDiffWorker) :
  let R := synchronizeReplication e w in
  (value_of R = None ->
     hasChangeSlaveType (cleaner w) (alias (subset w)) = true
     /\ hasChangeSlaveType (cleaner w) (alias (superset w)) = true)
  /\ (forall ti d,
        In (EvStopSlave ti d None) (trace_of R) ->
        hasChangeSlaveType (cleaner w) (Alias ti) = false ->
        (forall b, In (EvPoll b) (trace_of R) -> b = false) ->
        value_of R
        = Some (Errorf "cannot find ChangeSlaveType action for %v: %v" (Alias ti) ErrNoNode)
        /\ In (EvRecordAction (mkAction (Alias ti) (StartSlaveAction ti))) (trace_of R)
        /\ hasStartSlave (cleaner (worker_of R)) (Alias ti) = true).
Proof.
  destruct w as [ce sh cl cx sup sub st er ck].
  cbv zeta. cbn [cleaner subset superset]. unfold hasChangeSlaveType.
  all_paths_rewriting_of
    findChangeSlaveType_record_start findChangeSlaveType_setTabletType
    (synchronizeReplication e (mkWorker ce sh cl cx sup sub st er ck)) u w' t.
  all: cbn [cleaner alias].
  all: split; [try discriminate; intros _;
               repeat match goal with H : findChangeSlaveType _ _ = _ |- _ => rewrite H end;
               split; reflexivity|].
  all: intros ti d Hin Hno Hpoll.
  all: try solve [exfalso; assert (true = false) by (apply Hpoll; find_event); discriminate].
  all: in_cases Hin; inversion Hin; subst; cbn [Alias] in *.
  all: repeat match goal with
              | H : findChangeSlaveType _ _ = _ |- _ => rewrite H in Hno
              end; try discriminate Hno.
  all: split; [reflexivity|]; split; [find_event|].
  all: apply (hasStartSlave_recorded _ (mkTablet _ _)).
Qed.

Lemma synchronizeReplication_needs_ChangeSlaveType_witness :
  value_of (synchronizeReplication quiet_env unreserved_worker)
  = Some (Errorf "cannot find ChangeSlaveType action for %v: %v"
            (mkAlias "cell1" 200) ErrNoNode).
Proof.
  refine (proj1 (proj2
    (synchronizeReplication_needs_ChangeSlaveType quiet_env unreserved_worker)
    (mkTablet (mkAlias "cell1" 200) "host") (60 * Second)%Z _ _ _)).
  - find_event_closed.
  - vm_compute; reflexivity.
  - intros b H. eval_trace_in H.
    repeat (destruct H as [H|H]); try discriminate H; try contradiction H;
      inversion H; reflexivity.
Defined.

(** X6.  The order of the steps whenever the superset replica is halted: the
    subset halt under a 60 second timeout, a checkpoint, the recording of the
    subset's StartSlave action and the change of its recorded type to spare,
    the 5 second wait and a second checkpoint all come before the superset
    replica is looked up and halted under the same timeout. *)
Lemma synchronizeReplication_order (e : Env) (w : SQLDiffWorker) :
  length (halts (trace_of (synchronizeReplication e w))) = 2 ->
  exists h1 h2 r rest,
    trace_of (synchronizeReplication e w)
    = [ EvSetState sqlDiffSynchronizeReplication;
        EvLog LInfo "Stopping replication on subset slave %v" [ArgAlias (alias (subset w))];
        EvGetTablet (alias (subset w)) None;
        EvStopSlave (mkTablet (alias (subset w)) h1) (60 * Second) None;
        EvPoll false;
        EvRecordAction (mkAction (alias (subset w))
                          (StartSlaveAction (mkTablet (alias (subset w)) h1)));
        EvSetTabletType (alias (subset w)) TYPE_SPARE;
        EvSleep (5 * Second);
        EvPoll false;
        EvLog LInfo "Stopping replication on superset slave %v"
          [ArgAlias (alias (superset w))];
        EvGetTablet (alias (superset w)) None;
        EvStopSlave (mkTablet (alias (superset w)) h2) (60 * Second) r ] ++ rest.
Proof.
  destruct w as [ce sh cl cx sup sub st er ck]. cbn [subset superset].
  all_paths_of (synchronizeReplication e (mkWorker ce sh cl cx sup sub st er ck)) u w' t.
  all: cbn; try discriminate.
  all: intros _; do 4 eexists; reflexivity.
Qed.

(** C4 fails on the code at one step: the checkpoint that follows the subset
    halt comes before the recording of the undo.  In this run the
    cancellation arrives while the subset replica is being halted: the halt
    succeeds, the checkpoint returns the interrupted error, and the cleaner
    runs without any StartSlave action for the replica whose replication was
    stopped. *)
Lemma subset_halt_left_without_undo :
  let R := Run (cancel_at 5 quiet_env) sample_worker in
  let ti := mkTablet (mkAlias "cell1" 200) "host" in
  halts (trace_of R) = [ti]
  /\ In (EvStopSlave ti (60 * Second) None) (trace_of R)
  /\ hasStartSlave (cleaner (worker_of R)) (Alias ti) = false
  /\ In (EvCleanUp [ mkAction (mkAlias "cell1" 100) (ChangeSlaveTypeAction TYPE_RDONLY);
                     mkAction (mkAlias "cell1" 200) (ChangeSlaveTypeAction TYPE_RDONLY) ]
           None) (trace_of R)
  /\ err (worker_of R) = Some ErrInterrupted.
Proof.
  cbv zeta.
  split; [vm_compute; reflexivity|].
  split; [find_event_closed|].
  split; [vm_compute; reflexivity|].
  split; [find_event_closed|].
  vm_compute; reflexivity.
Qed.

(** [diff()] returns nil whenever the comparison itself was started, also
    when the comparison failed. *)
Lemma diff_swallows_Go_error (e : Env) (w : SQLDiffWorker) (g : option error) :
  In (EvDifferGo g) (trace_of (diff e w)) -> value_of (diff e w) = None.
Proof.
  destruct w as [ce sh cl cx sup sub st er ck].
  all_paths_of (diff e (mkWorker ce sh cl cx sup sub st er ck)) u w' t.
  all: intros H; in_cases H; reflexivity.
Qed.

(** C2 fails on the code in the diff phase: the comparison fails with a
    stream-read error, [diff()] logs it and returns nil, and the run ends in
    state "done" with no error. *)
Lemma differ_failure_ends_in_done :
  let x := ErrorString "stream read failed" in
  let R := Run (go_fails x quiet_env) sample_worker in
  In (EvDifferGo (Some x)) (trace_of R)
  /\ In (EvLog LError "Differ.Go failed: %v" [ArgErr x]) (trace_of R)
  /\ value_of (run (go_fails x quiet_env) sample_worker) = None
  /\ state (worker_of R) = sqlDiffDone
  /\ err (worker_of R) = None.
Proof.
  cbv zeta.
  split; [find_event_closed|].
  split; [find_event_closed|].
  repeat split; vm_compute; reflexivity.
Qed.

(** * Further properties of the worker *)

(** ** State names *)

(** X1.  Two states have the same name exactly when they are the same
    state: the status text identifies the state. *)
Theorem state_names_distinct (a b : sqlDiffWorkerState) :
  String.eqb (sqlDiffWorkerState_String a) (sqlDiffWorkerState_String b)
  = sqlDiffWorkerState_eqb a b.
Proof. destruct a, b; vm_compute; reflexivity. Qed.

(** ** Cancel and the checkpoints *)

(** X2.  [Cancel()] twice is [Cancel()] once, and it touches the context
    only.  The checkpoint that follows a [Cancel()] reports an interruption
    and records the interrupted error, whatever the environment does, unless
    the context was already done because its deadline was exceeded; then it
    reports none and leaves state and error alone. *)
Theorem Cancel_then_checkInterrupted (e : Env) (w : SQLDiffWorker) :
  let w1 := worker_of (Cancel w) in
  let r := checkInterrupted e w1 in
  let hit := match ctx w with
             | Some DeadlineExceeded => false
             | _ => true
             end in
  worker_of (Cancel w1) = w1
  /\ w1 = set_ctx w (ctx w1)
  /\ value_of r = hit
  /\ state (worker_of r) = (if hit then sqlDiffError else state w)
  /\ err (worker_of r) = (if hit then Some ErrInterrupted else err w)
  /\ trace_of r = (if hit then [EvPoll true; EvRecordError (Some ErrInterrupted)]
                   else [EvPoll false]).
Proof.
  destruct w as [ce sh cl cx sup sub st er ck].
  destruct cx as [[|]|]; cbv zeta; unfold_worker; repeat split.
Qed.

(** X3.  When a checkpoint of [run()] sees a cancellation, [run()] returns
    the interrupted error, the worker is in state "error" with the
    interrupted error stored, and the recording of that error is the last
    thing [run()] does: no later phase is entered. *)
Theorem run_interrupted (e : Env) (w : SQLDiffWorker) :
  interrupted (trace_of (run e w)) = true ->
  value_of (run e w) = Some ErrInterrupted
  /\ state (worker_of (run e w)) = sqlDiffError
  /\ err (worker_of (run e w)) = Some ErrInterrupted
  /\ last (trace_of (run e w)) (EvPoll false) = EvRecordError (Some ErrInterrupted).
Proof.
  destruct w as [ce sh cl cx sup sub st er ck].
  all_paths_of (run e (mkWorker ce sh cl cx sup sub st er ck)) u w' t.
  all: cbn; try discriminate; intros _; repeat split.
Qed.

Lemma run_interrupted_witness :
  interrupted (trace_of (run (cancel_at 2 quiet_env) sample_worker)) = true
  /\ value_of (run (cancel_at 2 quiet_env) sample_worker) = Some ErrInterrupted.
Proof.
  assert (H : interrupted (trace_of (run (cancel_at 2 quiet_env) sample_worker)) = true)
    by (vm_compute; reflexivity).
  split; [exact H|].
  exact (proj1 (run_interrupted (cancel_at 2 quiet_env) sample_worker H)).
Defined.

(** ** What the phases return *)

(** X4.  [diff()] returns the error of the first stream that failed to open
    or of the differ that failed to be built, and nil in every other case.
    It leaves the worker in state "running the diff" and touches neither
    the stored error, the cleaner nor the context. *)
Theorem diff_returns_setup_error (e : Env) (w : SQLDiffWorker) :
  let R := diff e w in
  value_of R = setup_error (trace_of R)
  /\ state (worker_of R) = sqlDiffRunning
  /\ err (worker_of R) = err w
  /\ cleaner (worker_of R) = cleaner w
  /\ ctx (worker_of R) = ctx w.
Proof.
  destruct w as [ce sh cl cx sup sub st er ck]. cbv zeta.
  all_paths_of (diff e (mkWorker ce sh cl cx sup sub st er ck)) u w' t.
  all: repeat split.
Qed.

(** X5.  What [synchronizeReplication] returns.  A failed call to a
    collaborator ends the phase with that call's error: the error of
    [GetTablet] as it is, the error of [StopSlave] wrapped with the alias of
    the replica.  A cancellation seen at a checkpoint ends it with the
    interrupted error.  Any other error it returns is the
    "cannot find ChangeSlaveType action" error. *)
Theorem synchronizeReplication_result (e : Env) (w : SQLDiffWorker) :
  let R := synchronizeReplication e w in
  (forall x, remote_failure (trace_of R) = Some x -> value_of R = Some x)
  /\ (interrupted (trace_of R) = true -> value_of R = Some ErrInterrupted)
  /\ (forall x, value_of R = Some x ->
        remote_failure (trace_of R) = Some x
        \/ (interrupted (trace_of R) = true /\ x = ErrInterrupted)
        \/ exists a,
             x = Errorf "cannot find ChangeSlaveType action for %v: %v" a ErrNoNode).
Proof.
  destruct w as [ce sh cl cx sup sub st er ck]. cbv zeta.
  all_paths_of (synchronizeReplication e (mkWorker ce sh cl cx sup sub st er ck)) u w' t.
  all: split; [cbn; try discriminate; intros ? H; exact H|].
  all: split; [cbn; try discriminate; intros _; reflexivity|].
  all: try discriminate.
  all: intros ? H; injection H as <-; cbn.
  all: first [ left; reflexivity
             | right; left; split; reflexivity
             | right; right; eexists; reflexivity ].
Qed.

Lemma synchronizeReplication_result_witness :
  value_of (synchronizeReplication (stop_fails (ContextErr DeadlineExceeded) quiet_env)
              discovered_worker)
  = Some (Errorf "Cannot stop slave %v: %v" (mkAlias "cell1" 200)
            (ContextErr DeadlineExceeded)).
Proof.
  apply (proj1 (synchronizeReplication_result
                  (stop_fails (ContextErr DeadlineExceeded) quiet_env)
                  discovered_worker)).
  vm_compute; reflexivity.
Defined.

Lemma synchronizeReplication_order_witness :
  length (halts (trace_of (synchronizeReplication quiet_env discovered_worker))) = 2
  /\ nth_error (trace_of (synchronizeReplication quiet_env discovered_worker)) 7
     = Some (EvSleep (5 * Second)).
Proof.
  assert (H : length (halts (trace_of (synchronizeReplication quiet_env discovered_worker)))
              = 2) by (vm_compute; reflexivity).
  split; [exact H|].
  destruct (synchronizeReplication_order quiet_env discovered_worker H)
    as (h1 & h2 & r & rest & E).
  rewrite E. reflexivity.
Defined.

(** ** What a whole run does to the replicas and to the cleaner *)


(** X7.  A run halts replication at most twice, first on the subset replica
    and then on the superset replica as target discovery named them, each
    time under a timeout of 60 seconds (60000000000 ns), and it waits at most
    once, for 5 seconds. *)
Theorem Run_halts_bounded (e : Env) (w : SQLDiffWorker) :
  let R := Run e w in
  let t := trace_of R in
  map Alias (halts t)
  = firstn (length (halts t)) [alias (subset (worker_of R)); alias (superset (worker_of R))]
  /\ halt_timeouts t = repeat 60000000000%Z (length (halts t))
  /\ (sleeps t = [] \/ sleeps t = [5000000000%Z])
  /\ length (sleeps t) <= length (halts t).
Proof.
  destruct w as [ce sh cl cx sup sub st er ck]. cbv zeta.
  all_paths_of (Run e (mkWorker ce sh cl cx sup sub st er ck)) u w' t.
  all: split; [reflexivity|].
  all: split; [reflexivity|].
  all: split; [first [left; reflexivity | right; reflexivity] | cbn; lia].
Qed.


Lemma changeSlaveTypeOf_set_found (c : Cleaner) (a : TabletAlias) (i : nat)
      (t : TabletType) :
  findChangeSlaveType c a = Some i ->
  changeSlaveTypeOf (setTabletType c i t) a = Some t.
Proof.
  revert i; induction c as [|r c IH]; intros i H; [discriminate H|].
  destruct r as [tg [ty|ti]]; cbn in H |- *.
  - destruct (TabletAlias_eqb tg a) eqn:E.
    + injection H as <-. cbn. now rewrite E.
    + destruct (findChangeSlaveType c a) as [j|]; [|discriminate H].
      injection H as <-. cbn. rewrite E. now apply IH.
  - destruct (findChangeSlaveType c a) as [j|]; [|discriminate H].
    injection H as <-. cbn. now apply IH.
Qed.

Lemma changeSlaveTypeOf_set_same (c : Cleaner) (a : TabletAlias) (j : nat)
      (t : TabletType) :
  changeSlaveTypeOf c a = Some t ->
  changeSlaveTypeOf (setTabletType c j t) a = Some t.
Proof.
  revert j; induction c as [|r c IH]; intros j H; [discriminate H|].
  destruct r as [tg [ty|ti]]; destruct j as [|j]; cbn in H |- *.
  - destruct (TabletAlias_eqb tg a); [reflexivity | exact H].
  - destruct (TabletAlias_eqb tg a); [exact H | now apply IH].
  - exact H.
  - now apply IH.
Qed.

Lemma changeSlaveTypeOf_record_start (c : Cleaner) (a' : TabletAlias)
      (ti : TabletInfo) (a : TabletAlias) :
  changeSlaveTypeOf (c ++ [mkAction a' (StartSlaveAction ti)]) a = changeSlaveTypeOf c a.
Proof.
  induction c as [|r c IH]; [reflexivity|].
  destruct r as [tg [ty|ti']]; cbn; rewrite IH; reflexivity.
Qed.

Lemma hasStartSlave_setTabletType (c : Cleaner) (i : nat) (t : TabletType)
      (a : TabletAlias) :
  hasStartSlave (setTabletType c i t) a = hasStartSlave c a.
Proof.
  unfold hasStartSlave.
  revert i; induction c as [|r c IH]; intros i; [destruct i; reflexivity|].
  destruct i as [|j]; cbn.
  - destruct r as [tg [ty|ti]]; reflexivity.
  - now rewrite IH.
Qed.

Lemma hasStartSlave_app_l (c l : Cleaner) (a : TabletAlias) :
  hasStartSlave c a = true -> hasStartSlave (c ++ l) a = true.
Proof. unfold hasStartSlave. intros H. now rewrite existsb_app, H. Qed.

Lemma length_setTabletType (c : Cleaner) (i : nat) (t : TabletType) :
  length (setTabletType c i t) = length c.
Proof.
  revert i; induction c as [|r c IH]; intros i; [destruct i; reflexivity|].
  destruct i as [|j]; cbn.
  - destruct r as [tg [ty|ti]]; reflexivity.
  - now rewrite IH.
Qed.

(** X9.  When [synchronizeReplication] succeeds, replication was halted on
    both replicas, and the cleaner holds two more actions than before: a
    StartSlave action for each of the two replicas; and for each of the two
    aliases the ChangeSlaveType action the lookup finds now gives the
    replica the type spare. *)
Theorem synchronizeReplication_success (e : Env) (w : SQLDiffWorker) :
  let R := synchronizeReplication e w in
  value_of R = None ->
  length (halts (trace_of R)) = 2
  /\ length (cleaner (worker_of R)) = length (cleaner w) + 2
  /\ hasStartSlave (cleaner (worker_of R)) (alias (subset w)) = true
  /\ hasStartSlave (cleaner (worker_of R)) (alias (superset w)) = true
  /\ changeSlaveTypeOf (cleaner (worker_of R)) (alias (subset w)) = Some TYPE_SPARE
  /\ changeSlaveTypeOf (cleaner (worker_of R)) (alias (superset w)) = Some TYPE_SPARE.
Proof.
  destruct w as [ce sh cl cx sup sub st er ck]. cbv zeta. cbn [cleaner subset superset].
  all_paths_rewriting_of
    findChangeSlaveType_record_start findChangeSlaveType_setTabletType
    (synchronizeReplication e (mkWorker ce sh cl cx sup sub st er ck)) u w' t.
  all: try discriminate.
  all: intros _; cbn [cleaner alias].
  all: split; [reflexivity|].
  all: split;
    [rewrite length_setTabletType, length_app, length_setTabletType, length_app; cbn; lia|].
  all: split;
    [rewrite hasStartSlave_setTabletType; apply hasStartSlave_app_l;
     rewrite hasStartSlave_setTabletType;
     apply (hasStartSlave_recorded _ (mkTablet _ _))|].
  all: split;
    [rewrite hasStartSlave_setTabletType;
     apply (hasStartSlave_recorded _ (mkTablet _ _))|].
  all: split;
    [apply changeSlaveTypeOf_set_same; rewrite changeSlaveTypeOf_record_start|].
  all: apply changeSlaveTypeOf_set_found.
  all: repeat first [ rewrite findChangeSlaveType_record_start
                    | rewrite findChangeSlaveType_setTabletType ];
    assumption.
Qed.

Lemma synchronizeReplication_success_witness :
  value_of (synchronizeReplication quiet_env discovered_worker) = None
  /\ changeSlaveTypeOf
       (cleaner (worker_of (synchronizeReplication quiet_env discovered_worker)))
       (alias (subset discovered_worker)) = Some TYPE_SPARE.
Proof.
  assert (H : value_of (synchronizeReplication quiet_env discovered_worker) = None)
    by (vm_compute; reflexivity).
  split; [exact H|].
  exact (proj1 (proj2 (proj2 (proj2 (proj2
           (synchronizeReplication_success quiet_env discovered_worker H)))))).
Defined.

(** ** Target discovery and the end of a run *)

(** X10.  When the lookup of the superset replica fails, [findTargets]
    returns that error after this one lookup: it does not look for the
    subset replica and leaves the subset spec as it was.  The superset alias
    has been assigned all the same, with what came back beside the error;
    keyspace, shard and query of the superset are unchanged. *)
Theorem findTargets_stops_at_first_failure (e : Env) (w : SQLDiffWorker) (x : error) :
  let found :=
    resolveChecker e (clock w) (cell w) (Keyspace (superset w)) (Shard (superset w)) in
  let R := findTargets e w in
  snd found = Some x ->
  value_of R = Some x
  /\ lookups (trace_of R) = 1
  /\ alias_writes Subset (trace_of R) = 0
  /\ subset (worker_of R) = subset w
  /\ superset (worker_of R) = with_alias (superset w) (fst found)
  /\ state (worker_of R) = sqlDiffFindTargets.
Proof.
  destruct w as [ce sh cl cx [ks ss q a0] sub st er ck]. cbv zeta.
  cbn [clock cell superset subset Keyspace Shard].
  destruct (resolveChecker e ck ce ks ss) as [a o] eqn:Hr.
  cbn [fst snd]. intros ->.
  unfold_worker. rewrite Hr. repeat split.
Qed.

Lemma findTargets_stops_at_first_failure_witness :
  value_of (findTargets (resolve_fails (ErrorString "no endpoint") quiet_env) sample_worker)
  = Some (ErrorString "no endpoint").
Proof.
  apply (proj1 (findTargets_stops_at_first_failure
                  (resolve_fails (ErrorString "no endpoint") quiet_env) sample_worker
                  (ErrorString "no endpoint") eq_refl)).
Defined.

(** X11.  [run()] returns nil only after all three phases ran: the state went
    through finding targets, synchronizing replication and running the diff,
    both replicas were halted, both streams were opened and closed, no
    checkpoint saw a cancellation, and the worker is left in state
    "running the diff". *)
Theorem run_success (e : Env) (w : SQLDiffWorker) :
  let R := run e w in
  value_of R = None ->
  state_writes (trace_of R)
  = [sqlDiffFindTargets; sqlDiffSynchronizeReplication; sqlDiffRunning]
  /\ state (worker_of R) = sqlDiffRunning
  /\ lookups (trace_of R) = 2
  /\ length (halts (trace_of R)) = 2
  /\ length (opened (trace_of R)) = 2
  /\ length (closed (trace_of R)) = 2
  /\ interrupted (trace_of R) = false.
Proof.
  destruct w as [ce sh cl cx sup sub st er ck]. cbv zeta.
  all_paths_of (run e (mkWorker ce sh cl cx sup sub st er ck)) u w' t.
  all: try discriminate.
  all: intros _; repeat split.
Qed.

Lemma run_success_witness :
  value_of (run quiet_env sample_worker) = None
  /\ length (halts (trace_of (run quiet_env sample_worker))) = 2.
Proof.
  assert (H : value_of (run quiet_env sample_worker) = None) by (vm_compute; reflexivity).
  split; [exact H|].
  exact (proj1 (proj2 (proj2 (proj2 (run_success quiet_env sample_worker H))))).
Defined.

(** How [Run] ends, for any worker it is started on. *)
Lemma Run_ends (e : Env) (w : SQLDiffWorker) :
  state (worker_of (Run e w)) = sqlDiffDone
  \/ exists x, state (worker_of (Run e w)) = sqlDiffError
               /\ err (worker_of (Run e w)) = Some x.
Proof.
  unfold Run. cbv [bind].
  destruct (run e w) as [[err0 w1] t1].
  destruct w1 as [ce sh cl cx sup sub st er ck].
  unfold_worker.
  destruct (cleaner_CleanUp e ck cl) as [c|], err0 as [x|]; unfold_worker;
    first [left; reflexivity | right; eexists; split; reflexivity].
Qed.

(** X12.  After [Run] the status can always be rendered, in both forms, and
    shows the end of the run and nothing of a phase: the plain text is the
    target line, then state "done" with the success marker, or state "error"
    with the text of the stored error. *)
Theorem status_after_Run (Error : error -> string) (e : Env) (w : SQLDiffWorker) :
  let w' := worker_of (Run e w) in
  let target :=
    ("Working on: " ++ Keyspace (subset w') ++ "/" ++ Shard (subset w') ++ nl)%string in
  (StatusAsText Error w'
   = Some (target ++ "State: done" ++ nl ++ "Success." ++ nl)%string
   \/ exists x,
        err w' = Some x
        /\ StatusAsText Error w'
           = Some (target ++ "State: error" ++ nl ++ "Error: " ++ Error x ++ nl)%string)
  /\ exists html, StatusAsHTML Error w' = Some html.
Proof.
  cbv zeta.
  destruct (Run_ends e w) as [Hd | (x & He & Hx)].
  - split; [left|]; unfold StatusAsText, StatusAsHTML; rewrite Hd.
    + f_equal. rewrite !string_app_assoc. reflexivity.
    + eexists; reflexivity.
  - split; [right; exists x; split; [exact Hx|]|];
      unfold StatusAsText, StatusAsHTML; rewrite He, Hx.
    + f_equal. rewrite !string_app_assoc. reflexivity.
    + eexists; reflexivity.
Qed.

(** ** Undo actions, the specs and the stored error over a run *)

(** X13.  A run records a restart of replication only for a replica it has
    halted, in the order of the halts; and when no checkpoint of the run saw
    a cancellation, it records one for every replica it has halted. *)
Theorem Run_records_restarts (e : Env) (w : SQLDiffWorker) :
  let t := trace_of (Run e w) in
  recorded_starts t = firstn (length (recorded_starts t)) (halted_ok t)
  /\ (interrupted t = false -> recorded_starts t = halted_ok t).
Proof.
  destruct w as [ce sh cl cx sup sub st er ck]. cbv zeta.
  all_paths_of (Run e (mkWorker ce sh cl cx sup sub st er ck)) u w' t.
  all: split; [reflexivity|].
  all: cbn; try discriminate; intros _; reflexivity.
Qed.

Lemma Run_records_restarts_witness :
  interrupted (trace_of (Run quiet_env sample_worker)) = false
  /\ recorded_starts (trace_of (Run quiet_env sample_worker))
     = halted_ok (trace_of (Run quiet_env sample_worker)).
Proof.
  assert (H : interrupted (trace_of (Run quiet_env sample_worker)) = false)
    by (vm_compute; reflexivity).
  split; [exact H|].
  exact (proj2 (Run_records_restarts quiet_env sample_worker) H).
Defined.

(** X14.  A run changes nothing of the two source specs but their aliases,
    and does not change the cell: keyspace, shard and query of both sides
    are at the end what they were at the start. *)
Theorem Run_keeps_specs (e : Env) (w : SQLDiffWorker) :
  let w' := worker_of (Run e w) in
  superset w' = with_alias (superset w) (alias (superset w'))
  /\ subset w' = with_alias (subset w) (alias (subset w'))
  /\ cell w' = cell w
  /\ shard w' = shard w.
Proof.
  destruct w as [ce sh cl cx [k1 s1 q1 a1] [k2 s2 q2 a2] st er ck]. cbv zeta.
  all_paths_of
    (Run e (mkWorker ce sh cl cx (mkSourceSpec k1 s1 q1 a1) (mkSourceSpec k2 s2 q2 a2)
              st er ck)) u w' t.
  all: repeat split.
Qed.

(** X15.  For a worker that holds no error when [Run] starts, as a new
    worker does, [Error()] returns nil after the run exactly when the run
    ended in state "done". *)
Theorem Error_nil_iff_done (e : Env) (w : SQLDiffWorker) :
  err w = None ->
  (worker_Error (worker_of (Run e w)) = None
   <-> state (worker_of (Run e w)) = sqlDiffDone).
Proof.
  destruct w as [ce sh cl cx sup sub st er ck]. cbn [err]. intros ->.
  unfold worker_Error.
  all_paths_of (Run e (mkWorker ce sh cl cx sup sub st None ck)) u w' t.
  all: cbn [err state]; split; intros H; first [reflexivity | discriminate H].
Qed.

Lemma Error_nil_iff_done_witness :
  err (NewSQLDiffWorker "cell1" sample_superset sample_subset) = None
  /\ (worker_Error
        (worker_of (Run quiet_env (NewSQLDiffWorker "cell1" sample_superset sample_subset)))
      = None
      <-> state
            (worker_of (Run quiet_env (NewSQLDiffWorker "cell1" sample_superset sample_subset)))
          = sqlDiffDone).
Proof.
  split; [reflexivity|].
  exact (Error_nil_iff_done quiet_env
           (NewSQLDiffWorker "cell1" sample_superset sample_subset) eq_refl).
Defined.
